(** * Error handling in the notes lesson application

    A shallow embedding of [app.js], of [routes/notes.js] and of the
    middleware snippets of the lesson's README, with the properties of
    the error-propagation chain: route handlers, the catch-all 404
    middleware and the centralized error middleware.

    What is modelled of the host framework: a chain of layers tried in
    registration order; a layer is entered when its method and path
    match; a handler answers ([res.json]), passes on ([next()]),
    delegates an error ([next(err)]) or, for an [async] handler, leaves
    a rejected promise behind.  Paths are matched segment by segment,
    literal segments without regard to ASCII case, one trailing slash
    allowed; parameter values are taken verbatim (no percent-decoding).
    The framework's own HEAD and OPTIONS fallbacks are not modelled, and
    numbers are integers.  The theorems that range over every request
    keep to the requests on which this reading and the framework
    agree: methods other than HEAD and OPTIONS, and paths whose
    segments are not empty and need no escaping ([plain_target]).
    [res.status(s).json(b)] is taken to succeed and to carry its body,
    as it does for the error statuses 400 to 599. *)

From Stdlib Require Import String Ascii List ZArith Bool Lia DecimalString DecimalNat.
Import ListNotations.
Open Scope string_scope.
Set Warnings "-register-all".

(** ** JavaScript values *)

Module Js.

Inductive value : Type :=
| Undefined
| Null
| Bool (b : bool)
| Num (z : Z)
| Str (s : string)
| Arr (items : list value)
| Obj (fields : list (string * value)).

(** [!!v]: the falsy values are [undefined], [null], [false], [0]
    and the empty string. *)
Definition truthy (v : value) : bool :=
  match v with
  | Undefined | Null => false
  | Bool b => b
  | Num z => negb (z =? 0)%Z
  | Str s => negb (s =? "")
  | Arr _ | Obj _ => true
  end.

(** [a || b] *)
Definition or (a b : value) : value := if truthy a then a else b.

Fixpoint lookup (k : string) (fields : list (string * value)) : value :=
  match fields with
  | [] => Undefined
  | (k', v) :: rest => if k' =? k then v else lookup k rest
  end.

(** [v.k] for the keys the handlers read ([status], [message],
    [title], [body]): a field of an object, [undefined] on a
    primitive.  Reading a property of [null] or [undefined] throws:
    neither is ever delegated as an error, and [createNote] spells the
    throw out for [req.body]. *)
Definition get (v : value) (k : string) : value :=
  match v with
  | Obj fields => lookup k fields
  | _ => Undefined
  end.

(** [String(n)] for a non-negative integer. *)
Definition String_ (n : nat) : string :=
  NilZero.string_of_uint (Nat.to_uint n).

(** [new Error(message)] *)
Definition Error (message : string) : value :=
  Obj [("message", Str message)].

(** [err.status = s] on an object without a [status] field. *)
Definition set_status (err : value) (s : value) : value :=
  match err with
  | Obj fields => Obj (fields ++ [("status", s)])
  | _ => err
  end.

(** A promise, settled: timers are not modelled. *)
Inductive promise (A : Type) : Type :=
| Resolved (a : A)
| Rejected (reason : value).
Arguments Resolved {A} a.
Arguments Rejected {A} reason.

End Js.

(** ** Notes *)

Record Note : Type := mkNote {
  id : string;
  title : Js.value;
  body : Js.value
}.

Definition note_json (n : Note) : Js.value :=
  Js.Obj [("id", Js.Str (id n)); ("title", title n); ("body", body n)].

(** The fake data store of [routes/notes.js]. *)
Definition notes : list Note :=
  [ mkNote "1" (Js.Str "Grocery") (Js.Str "Buy milk");
    mkNote "2" (Js.Str "Workout") (Js.Str "Leg day") ].

(** [arr.find(n => n.id === wanted)] *)
Definition find_by_id (arr : list Note) (wanted : string) : option Note :=
  List.find (fun n => id n =? wanted) arr.

(** The module-level [notes] array as it stands at some moment. *)
Definition Store : Type := list Note.

(** ** Requests and paths *)

Record Request : Type := mkRequest {
  method : string;        (* [req.method], upper case: GET, POST, ... *)
  url : string;           (* [req.url]: the request target, query included *)
  req_body : Js.value     (* [req.body] as the JSON body parser leaves it *)
}.

Definition GET (target : string) : Request :=
  mkRequest "GET" target Js.Undefined.

Definition POST (target : string) (json : Js.value) : Request :=
  mkRequest "POST" target json.

(** The target up to its query string. *)
Fixpoint pathname (target : string) : string :=
  match target with
  | EmptyString => EmptyString
  | String c rest =>
      if Ascii.eqb c "?" then EmptyString else String c (pathname rest)
  end.

Fixpoint split_slash (s : string) : list string :=
  match s with
  | EmptyString => [EmptyString]
  | String c rest =>
      if Ascii.eqb c "/" then EmptyString :: split_slash rest
      else match split_slash rest with
           | [] => [String c EmptyString]
           | seg :: segs => String c seg :: segs
           end
  end.

(** One trailing slash is not significant. *)
Fixpoint drop_trailing_slash (segs : list string) : list string :=
  match segs with
  | [] => []
  | [seg] => if seg =? "" then [] else [seg]
  | seg :: rest => seg :: drop_trailing_slash rest
  end.

(** The segments of a target that starts with a slash. *)
Definition segments (target : string) : option (list string) :=
  match pathname target with
  | String "/" rest => Some (drop_trailing_slash (split_slash rest))
  | _ => None
  end.

Definition lower_ascii (c : ascii) : ascii :=
  let n := nat_of_ascii c in
  if ((65 <=? n) && (n <=? 90))%nat then ascii_of_nat (n + 32) else c.

Fixpoint lower (s : string) : string :=
  match s with
  | EmptyString => EmptyString
  | String c rest => String (lower_ascii c) (lower rest)
  end.

(** A segment of a route path: a literal or a named parameter [:x]. *)
Inductive Seg : Type :=
| Lit (s : string)
| Param (name : string).

Definition seg_of (s : string) : Seg :=
  match s with
  | String ":" name => Param name
  | _ => Lit s
  end.

(** The pattern a route path such as [/async-notes/:id] stands for. *)
Definition pattern_of (path : string) : list Seg :=
  match segments path with
  | Some segs => map seg_of segs
  | None => []
  end.

Definition Params : Type := list (string * string).

Fixpoint param (ps : Params) (name : string) : string :=
  match ps with
  | [] => ""
  | (k, v) :: rest => if k =? name then v else param rest name
  end.

(** Matching of segments against a pattern; [whole = false] accepts
    any rest, as a mount point does. *)
Fixpoint match_segs (whole : bool) (pat : list Seg) (segs : list string)
  : option Params :=
  match pat, segs with
  | [], [] => Some []
  | [], _ :: _ => if whole then None else Some []
  | _ :: _, [] => None
  | Lit l :: pat', s :: segs' =>
      if lower s =? lower l then match_segs whole pat' segs' else None
  | Param x :: pat', s :: segs' =>
      if s =? "" then None
      else option_map (cons (x, s)) (match_segs whole pat' segs')
  end.

(** ** Handlers and layers *)

(** What one handler invocation does. *)
Inductive Action : Type :=
| Respond (status : Js.value) (json : Js.value)  (* [res.status(s).json(b)] *)
| Next                                           (* [next()] *)
| NextErr (err : Js.value)                       (* [next(err)] *)
| Throw (err : Js.value)                         (* a synchronous [throw] *)
| Rejection (reason : Js.value).  (* the [async] handler's promise rejects *)

(** [res.json(b)]: the status is 200 unless set. *)
Definition res_json (json : Js.value) : Action := Respond (Js.Num 200) json.

(** [await p] in an [async] handler with no [try]/[catch] around it. *)
Definition await {A : Type} (p : Js.promise A) (k : A -> Action) : Action :=
  match p with
  | Js.Resolved a => k a
  | Js.Rejected reason => Rejection reason
  end.

Record Ctx : Type := mkCtx {
  req : Request;
  params : Params          (* [req.params] *)
}.

Definition Handler : Type := Ctx -> Store -> Store * Action.
Definition ErrorHandler : Type := Js.value -> Handler.

Inductive LayerFn : Type :=
| Middleware (h : Handler)            (* [(req, res, next) => ...] *)
| ErrorMiddleware (h : ErrorHandler). (* [(err, req, res, next) => ...] *)

Inductive PathSpec : Type :=
| Under (pat : list Seg)    (* [use]: the path and everything below it *)
| Exactly (pat : list Seg). (* [get], [post]: the whole path *)

Record Layer : Type := mkLayer {
  label : string;
  on_method : option string;   (* [None]: every method *)
  on_path : PathSpec;
  fn : LayerFn
}.

Definition get (path : string) (h : Handler) : Layer :=
  mkLayer ("GET " ++ path) (Some "GET") (Exactly (pattern_of path)) (Middleware h).

Definition post (path : string) (h : Handler) : Layer :=
  mkLayer ("POST " ++ path) (Some "POST") (Exactly (pattern_of path)) (Middleware h).

(** [app.use(fn)] *)
Definition use (name : string) (f : LayerFn) : Layer :=
  mkLayer name None (Under []) f.

Definition under (prefix : list Seg) (p : PathSpec) : PathSpec :=
  match p with
  | Under pat => Under (prefix ++ pat)%list
  | Exactly pat => Exactly (prefix ++ pat)%list
  end.

(** [app.use(path, router)]: the router's layers, below [path]. *)
Definition use_router (path : string) (router : list Layer) : list Layer :=
  map (fun l => mkLayer (path ++ " > " ++ label l) (on_method l)
                        (under (pattern_of path) (on_path l)) (fn l))
      router.

Definition match_method (m : option string) (r : Request) : bool :=
  match m with
  | None => true
  | Some name => method r =? name
  end.

Definition match_path (p : PathSpec) (target : string) : option Params :=
  match p with
  | Under [] => Some []
  | Under pat =>
      match segments target with
      | Some segs => match_segs false pat segs
      | None => None
      end
  | Exactly pat =>
      match segments target with
      | Some segs => match_segs true pat segs
      | None => None
      end
  end.

(** The parameters with which a layer is entered, if it is. *)
Definition enter (l : Layer) (r : Request) : option Params :=
  if match_method (on_method l) r then match_path (on_path l) (url r) else None.

(** ** The chain *)

Inductive Outcome : Type :=
| Responded (status : Js.value) (json : Js.value)
| HostNotFound                       (* nothing answered: the host's own 404 page *)
| HostError (err : Js.value)         (* an error nobody took: the host's error page *)
| UnhandledRejection (reason : Js.value).

Record Run : Type := mkRun {
  store_after : Store;
  trace : list string;               (* the layers entered, in order *)
  outcome : Outcome
}.

Definition entered (name : string) (r : Run) : Run :=
  mkRun (store_after r) (name :: trace r) (outcome r).

(** [next(err)] with a falsy [err] is [next()].  The handlers here
    delegate error objects only; the host's reserved arguments of
    [next] (route, router) are not modelled. *)
Definition delegated (err : Js.value) : option Js.value :=
  if Js.truthy err then Some err else None.

(** One request through a stack of layers; [pending] is the error
    being forwarded, if any.  An error skips the ordinary layers, and
    an error middleware is skipped while there is none.  A synchronous
    throw is caught by the host and forwarded like [next(err)]; the
    rejected promise of an [async] handler is not, as the README says
    (async errors do not go to the error middleware by themselves). *)
Fixpoint handle (stack : list Layer) (pending : option Js.value)
  (r : Request) (st : Store) : Run :=
  match stack with
  | [] =>
      mkRun st []
        match pending with
        | None => HostNotFound
        | Some err => HostError err
        end
  | l :: rest =>
      let step (done : Store * Action) : Run :=
        entered (label l)
          match snd done with
          | Respond status json => mkRun (fst done) [] (Responded status json)
          | Next => handle rest None r (fst done)
          | NextErr err | Throw err => handle rest (delegated err) r (fst done)
          | Rejection reason => mkRun (fst done) [] (UnhandledRejection reason)
          end in
      match enter l r with
      | None => handle rest pending r st
      | Some ps =>
          match fn l, pending with
          | Middleware h, None => step (h (mkCtx r ps) st)
          | ErrorMiddleware h, Some err => step (h err (mkCtx r ps) st)
          | _, _ => handle rest pending r st
          end
      end
  end.

(** A request arriving at an application. *)
Definition serve (stack : list Layer) (r : Request) (st : Store) : Run :=
  handle stack None r st.

(** ** [routes/notes.js] *)

(** [router.get("/", ...)] *)
Definition listNotes : Handler :=
  fun _ st => (st, res_json (Js.Arr (map note_json st))).

(** [router.get("/:id", ...)] *)
Definition noteById : Handler :=
  fun ctx st =>
    match find_by_id st (param (params ctx) "id") with
    | None =>
        let err := Js.Error "Note not found" in
        let err := Js.set_status err (Js.Num 404) in
        (st, NextErr err)
    | Some note => (st, res_json (note_json note))
    end.

(** The simulated database call: it searches an array of its own. *)
Definition getNoteFromDB (wanted : string) : Js.promise Note :=
  let notes :=
    [ mkNote "1" (Js.Str "Grocery") (Js.Str "Buy milk");
      mkNote "2" (Js.Str "Workout") (Js.Str "Leg day") ] in
  match find_by_id notes wanted with
  | None => Js.Rejected (Js.Error "Note not found in database")
  | Some note => Js.Resolved note
  end.

(** [router.get("/async-notes/:id", async (req, res) => ...)] *)
Definition asyncNoteById : Handler :=
  fun ctx st =>
    (st, await (getNoteFromDB (param (params ctx) "id"))
           (fun note => res_json (note_json note))).

Definition notesRoute : list Layer :=
  [ get "/" listNotes;
    get "/:id" noteById;
    get "/async-notes/:id" asyncNoteById ].

(** ** [app.js] *)

Definition hello : Handler :=
  fun _ st => (st, res_json (Js.Obj [("message", Js.Str "Hello")])).

(** The application as the file registers it: steps 4 and 5 are
    comments, no layer follows the notes router. *)
Definition app : list Layer :=
  get "/hello" hello :: use_router "/notes" notesRoute.

(** ** The middleware of the README *)

(** The catch-all 404 middleware (Section 2, step 3). *)
Definition routeNotFound : Handler :=
  fun ctx st =>
    let err := Js.Error ("Route not found: " ++ method (req ctx) ++ " " ++ url (req ctx)) in
    let err := Js.set_status err (Js.Num 404) in
    (st, NextErr err).

(** The centralized error middleware (Section 2, step 2). *)
Definition errorMiddleware : ErrorHandler :=
  fun err _ st =>
    let statusCode := Js.or (Js.get err "status") (Js.Num 500) in
    (st, Respond statusCode
           (Js.Obj [("error", Js.Obj [("message", Js.get err "message");
                                      ("status", statusCode)])])).

(** Modelled from the spec: the [AppError] class, which the README uses
    and never defines; an error value with a message and a status that
    defaults to 500. *)
Definition AppError (message : string) (status : option Z) : Js.value :=
  Js.Obj [("message", Js.Str message);
          ("status", Js.Num match status with Some s => s | None => 500%Z end)].

(** The create-note extension, [app.post("/notes", ...)].  Taking
    [title] and [body] out of a [req.body] that is [undefined] or
    [null] throws a TypeError. *)
Definition createNote : Handler :=
  fun ctx st =>
    match req_body (req ctx) with
    | Js.Undefined =>
        (st, Throw (Js.Error "Cannot destructure property 'title' of 'req.body' as it is undefined."))
    | Js.Null =>
        (st, Throw (Js.Error "Cannot destructure property 'title' of 'req.body' as it is null."))
    | json =>
        let title := Js.get json "title" in
        let body := Js.get json "body" in
        if negb (Js.truthy title) || negb (Js.truthy body)
        then (st, NextErr (AppError "title and body required" (Some 400%Z)))
        else
          let newNote := mkNote (Js.String_ (List.length st + 1)) title body in
          ((st ++ [newNote])%list, Respond (Js.Num 201) (note_json newNote))
    end.

(** [app.js] with the README's catch-all and error middleware where
    its comments 4 and 5 stand. *)
Definition app_completed : list Layer :=
  (app ++ [ use "route not found" (Middleware routeNotFound);
            use "error middleware" (ErrorMiddleware errorMiddleware) ])%list.

(** The single-file notes API of the README (Section 2): its two
    routes, the create-note extension, then the catch-all and the
    error middleware at the very end. *)
Definition lesson_app : list Layer :=
  [ get "/notes" listNotes;
    get "/notes/:id" noteById;
    post "/notes" createNote;
    use "route not found" (Middleware routeNotFound);
    use "error middleware" (ErrorMiddleware errorMiddleware) ].

(** ** Other routes and middleware of the README *)

(** The global middleware of the warm-up: it logs a line and passes
    on.  The line it prints is the layer's entry in the trace. *)
Definition globalMiddleware : Handler :=
  fun _ st => (st, Next).

(** The warm-up application: the global middleware, then [/hello]. *)
Definition warmup_app : list Layer :=
  [ use "global middleware" (Middleware globalMiddleware);
    get "/hello" hello ].

(** [app.get("/crash", ...)]: the handler throws. *)
Definition crash : Handler :=
  fun _ st => (st, Throw (Js.Error "Something broke!")).

(** [app.get("/not-found", ...)]: the handler delegates a 404. *)
Definition resourceNotFound : Handler :=
  fun _ st =>
    let err := Js.Error "Resource not found" in
    let err := Js.set_status err (Js.Num 404) in
    (st, NextErr err).

(** [try { ... await p ... } catch (err) { ... }] in an [async] handler. *)
Definition await_catch {A : Type} (p : Js.promise A) (k : A -> Action)
  (handler : Js.value -> Action) : Action :=
  match p with
  | Js.Resolved a => k a
  | Js.Rejected reason => handler reason
  end.

(** The corrected async route, with [try]/[catch] and [next(err)]. *)
Definition asyncNoteByIdCaught : Handler :=
  fun ctx st =>
    (st, await_catch (getNoteFromDB (param (params ctx) "id"))
           (fun note => res_json (note_json note))
           (fun err =>
              let err := Js.set_status err (Js.Num 404) in
              NextErr err)).

(** The route of the 404 demo, [app.post("/notes", ...)]. *)
Definition created : Handler :=
  fun _ st => (st, res_json (Js.Obj [("created", Js.Bool true)])).

(** The catch-all and the error middleware, in the order the README
    asks for. *)
Definition error_handling : list Layer :=
  [ use "route not found" (Middleware routeNotFound);
    use "error middleware" (ErrorMiddleware errorMiddleware) ].

(** ** Stores and sequences of requests *)

(** The store after a sequence of requests, served one after another. *)
Fixpoint serve_all (stack : list Layer) (rs : list Request) (st : Store) : Store :=
  match rs with
  | [] => st
  | r :: rest => serve_all stack rest (store_after (serve stack r st))
  end.

(** The ids of the store are 1, 2, ... in insertion order. *)
Definition well_numbered (st : Store) : Prop :=
  map id st = map Js.String_ (seq 1 (List.length st)).

(** A layer that is no error middleware. *)
Definition ordinary (l : Layer) : bool :=
  match fn l with
  | Middleware _ => true
  | ErrorMiddleware _ => false
  end.

(** The handler of a layer keeps a property of the store. *)
Definition layer_keeps (P : Store -> Prop) (l : Layer) : Prop :=
  match fn l with
  | Middleware h => forall ctx st, P st -> P (fst (h ctx st))
  | ErrorMiddleware h => forall err ctx st, P st -> P (fst (h err ctx st))
  end.

(** ** Identifiers that can stand in a path *)

Definition plain_char (c : ascii) : bool :=
  negb (Ascii.eqb c "/") && negb (Ascii.eqb c "?")
  && negb (Ascii.eqb c "#") && negb (Ascii.eqb c "%").

Fixpoint all_chars (p : ascii -> bool) (s : string) : bool :=
  match s with
  | EmptyString => true
  | String c rest => p c && all_chars p rest
  end.

(** [plain s]: [s] is one path segment as it is written, not empty
    and with nothing to escape. *)
Definition plain (s : string) : bool :=
  negb (s =? "") && all_chars plain_char s.

(** [plain_target t]: the path of [t] starts with a slash and each of
    its segments is plain; a query string and one trailing slash are
    allowed. *)
Definition plain_target (target : string) : bool :=
  match segments target with
  | Some segs => forallb plain segs
  | None => false
  end.

(** A request the host routes by its own path and method alone: no
    HEAD (answered through the GET routes, without a body), no OPTIONS
    (answered by the host itself), and a plain target. *)
Definition plainly_routed (r : Request) : Prop :=
  method r <> "HEAD" /\ method r <> "OPTIONS" /\ plain_target (url r) = true.

(** An HTTP error status, 400 to 599: [res.status] accepts it and
    the response carries a body. *)
Definition error_status (v : Js.value) : bool :=
  match v with
  | Js.Num z => ((400 <=? z) && (z <=? 599))%Z
  | _ => false
  end.

(** No layer of [routes] is entered by the request. *)
Definition no_route (routes : list Layer) (r : Request) : bool :=
  forallb (fun l => match enter l r with None => true | Some _ => false end) routes.

(** The envelope of the catch-all for a request. *)
Definition route_not_found_json (r : Request) : Js.value :=
  Js.Obj [("error",
           Js.Obj [("message", Js.Str ("Route not found: " ++ method r ++ " " ++ url r));
                   ("status", Js.Num 404)])].

(** The envelope of a lookup that misses. *)
Definition note_not_found_json : Js.value :=
  Js.Obj [("error",
           Js.Obj [("message", Js.Str "Note not found"); ("status", Js.Num 404)])].

(** ** Proof automation *)

(** [enter] of a concrete layer on a request whose segments are known. *)
Ltac enter_by Hseg :=
  unfold enter, get, post; cbn; rewrite Hseg; cbn;
  repeat match goal with
    | H : (_ =? "") = false |- _ => rewrite H
    end;
  try reflexivity;
  match goal with
  | |- context [if ?c then _ else _] => destruct c; reflexivity
  end.

(** * Properties *)

(** ** Paths *)

Lemma plain_char_inv c :
  plain_char c = true -> Ascii.eqb c "/" = false /\ Ascii.eqb c "?" = false.
Proof.
  unfold plain_char. intros H.
  destruct (Ascii.eqb c "/"), (Ascii.eqb c "?"); simpl in H; auto; discriminate.
Qed.

Lemma pathname_plain s : all_chars plain_char s = true -> pathname s = s.
Proof.
  induction s as [|c s IH]; simpl; intros H; [reflexivity|].
  apply andb_prop in H as [Hc Hs].
  apply plain_char_inv in Hc as [_ Hq]. rewrite Hq, IH by assumption. reflexivity.
Qed.

Lemma split_slash_plain s : all_chars plain_char s = true -> split_slash s = [s].
Proof.
  induction s as [|c s IH]; simpl; intros H; [reflexivity|].
  apply andb_prop in H as [Hc Hs].
  apply plain_char_inv in Hc as [Hsl _]. rewrite Hsl, IH by assumption. reflexivity.
Qed.

Lemma plain_inv s :
  plain s = true -> (s =? "") = false /\ all_chars plain_char s = true.
Proof.
  unfold plain. intros H. apply andb_prop in H as [Hne Hall].
  split; [|assumption]. now destruct (s =? "").
Qed.

Lemma segments_notes_id j :
  plain j = true -> segments ("/notes/" ++ j) = Some ["notes"; j].
Proof.
  intros H. apply plain_inv in H as [Hne Hall].
  unfold segments. simpl. rewrite (pathname_plain j Hall). simpl.
  rewrite (split_slash_plain j Hall). simpl. rewrite Hne. reflexivity.
Qed.

Lemma segments_async_notes_id j :
  plain j = true ->
  segments ("/notes/async-notes/" ++ j) = Some ["notes"; "async-notes"; j].
Proof.
  intros H. apply plain_inv in H as [Hne Hall].
  unfold segments. simpl. rewrite (pathname_plain j Hall). simpl.
  rewrite (split_slash_plain j Hall). simpl. rewrite Hne. reflexivity.
Qed.

(** ** The chain *)

Lemma handle_skip routes rest pending r st :
  no_route routes r = true ->
  handle (routes ++ rest) pending r st = handle rest pending r st.
Proof.
  induction routes as [|l routes IH]; simpl; intros H; [reflexivity|].
  apply andb_prop in H as [Hl Hrest].
  destruct (enter l r); [discriminate|]. now apply IH.
Qed.

(** An error that reaches the error middleware is answered by it. *)
Lemma handle_error_middleware err r st :
  handle [use "error middleware" (ErrorMiddleware errorMiddleware)] (Some err) r st
  = mkRun st ["error middleware"]
      (Responded (Js.or (Js.get err "status") (Js.Num 500))
         (Js.Obj [("error",
                   Js.Obj [("message", Js.get err "message");
                           ("status", Js.or (Js.get err "status") (Js.Num 500))])])).
Proof. reflexivity. Qed.

(** ** Unmatched requests *)

(** C1, as stated, fails on [app.js] as it is: the file registers no
    catch-all, so a request that matches no route runs off the end of
    the chain and is left to the host's own 404 page; no JSON envelope
    is produced. *)
Lemma app_unmatched_left_to_host :
  no_route app (GET "/does-not-exist") = true /\
  serve app (GET "/does-not-exist") notes = mkRun notes [] HostNotFound /\
  outcome (serve app (GET "/does-not-exist") notes)
  <> Responded (Js.Num 404) (route_not_found_json (GET "/does-not-exist")).
Proof.
  split; [reflexivity|]. split; [reflexivity|].
  vm_compute. discriminate.
Qed.

(** C1, amended: when the catch-all 404 middleware and then the error
    middleware of the README follow the routes (steps 4 and 5 of
    [app.js] filled in), every request that matches no route is
    answered with status 404 and the JSON envelope whose message is
    [Route not found: ] followed by the method and [req.url]; the
    store is left as it was.  The requests are those the host routes
    by method and path alone: not HEAD or OPTIONS, and with a plain
    target. *)
Theorem unmatched_route_answered_404 (routes : list Layer) (r : Request) (st : Store) :
  plainly_routed r ->
  no_route routes r = true ->
  serve (routes ++ [ use "route not found" (Middleware routeNotFound);
                     use "error middleware" (ErrorMiddleware errorMiddleware) ]) r st
  = mkRun st ["route not found"; "error middleware"]
      (Responded (Js.Num 404) (route_not_found_json r)).
Proof.
  intros _ H. unfold serve. rewrite (handle_skip _ _ _ _ _ H). reflexivity.
Qed.

Lemma unmatched_route_answered_404_witness :
  plainly_routed (GET "/does-not-exist") /\
  no_route app (GET "/does-not-exist") = true /\
  serve app_completed (GET "/does-not-exist") notes
  = mkRun notes ["route not found"; "error middleware"]
      (Responded (Js.Num 404)
         (Js.Obj [("error",
                   Js.Obj [("message", Js.Str "Route not found: GET /does-not-exist");
                           ("status", Js.Num 404)])])).
Proof.
  assert (Hr : plainly_routed (GET "/does-not-exist")).
  { repeat split; try discriminate. }
  split; [exact Hr|]. split; [reflexivity|].
  exact (unmatched_route_answered_404 app (GET "/does-not-exist") notes Hr eq_refl).
Defined.

(** ** Lookup by id *)

Lemma find_by_id_none (st : Store) (j : string) :
  (forall n, In n st -> id n <> j) -> find_by_id st j = None.
Proof.
  intros H. unfold find_by_id.
  destruct (find (fun n => id n =? j) st) as [n|] eqn:E; [|reflexivity].
  apply find_some in E as [Hin Heq]. apply String.eqb_eq in Heq.
  now destruct (H n Hin).
Qed.

Lemma find_by_id_some (st : Store) (i : string) :
  (exists n, In n st /\ id n = i) ->
  exists note, find_by_id st i = Some note /\ In note st /\ id note = i.
Proof.
  intros [n [Hin Hid]]. unfold find_by_id.
  destruct (find (fun n => id n =? i) st) as [note|] eqn:E.
  - exists note. apply find_some in E as [Hin' Heq].
    apply String.eqb_eq in Heq. auto.
  - apply (find_none _ _ E) in Hin. simpl in Hin.
    rewrite Hid, String.eqb_refl in Hin. discriminate.
Qed.

(** One step of the chain, by what [enter] says. *)
Lemma handle_pass l rest pending r st :
  enter l r = None -> handle (l :: rest) pending r st = handle rest pending r st.
Proof. intros H. simpl. now rewrite H. Qed.

Lemma handle_enter l h ps rest r st :
  enter l r = Some ps ->
  fn l = Middleware h ->
  handle (l :: rest) None r st
  = entered (label l)
      match snd (h (mkCtx r ps) st) with
      | Respond status json => mkRun (fst (h (mkCtx r ps) st)) [] (Responded status json)
      | Next => handle rest None r (fst (h (mkCtx r ps) st))
      | NextErr err | Throw err =>
          handle rest (delegated err) r (fst (h (mkCtx r ps) st))
      | Rejection reason =>
          mkRun (fst (h (mkCtx r ps) st)) [] (UnhandledRejection reason)
      end.
Proof. intros He Hf. simpl. now rewrite He, Hf. Qed.

(** What the notes router does with a GET whose path is [/notes/<j>],
    whatever follows the router. *)
Lemma handle_note_by_id (rest : list Layer) (target j : string) (st : Store) :
  segments target = Some ["notes"; j] ->
  (j =? "") = false ->
  handle (app ++ rest) None (GET target) st
  = entered "/notes > GET /:id"
      match find_by_id st j with
      | None =>
          handle rest
            (Some (Js.Obj [("message", Js.Str "Note not found"); ("status", Js.Num 404)]))
            (GET target) st
      | Some note => mkRun st [] (Responded (Js.Num 200) (note_json note))
      end.
Proof.
  intros Hseg Hne.
  unfold app, notesRoute. cbn [use_router map List.app].
  rewrite handle_pass by enter_by Hseg.
  rewrite handle_pass by enter_by Hseg.
  erewrite handle_enter with (ps := [("id", j)]) (h := noteById);
    [ | enter_by Hseg | reflexivity ].
  unfold noteById. cbn [param params String.eqb Ascii.eqb Bool.eqb].
  destruct (find_by_id st j); cbn [snd fst]; [reflexivity|].
  rewrite handle_pass by enter_by Hseg. reflexivity.
Qed.

(** C2, as stated, fails on [app.js] as it is: the lookup delegates
    its error, but no error middleware is registered, so the error is
    left to the host's own error page and the JSON envelope is never
    produced. *)
Lemma app_missing_note_left_to_host :
  find_by_id notes "999" = None /\
  serve app (GET "/notes/999") notes
  = mkRun notes ["/notes > GET /:id"]
      (HostError (Js.Obj [("message", Js.Str "Note not found"); ("status", Js.Num 404)])) /\
  outcome (serve app (GET "/notes/999") notes)
  <> Responded (Js.Num 404) note_not_found_json.
Proof.
  split; [reflexivity|]. split; [reflexivity|].
  vm_compute. discriminate.
Qed.

(** C2, amended: with the README's catch-all and error middleware
    registered after the routes of [app.js], for every id [j] (one
    path segment) that no note of the store has, [GET /notes/j] is
    answered with status 404 and exactly the envelope
    [{error: {message: "Note not found", status: 404}}], emitted by
    the error middleware; the store is left as it was. *)
Theorem missing_note_answered_404 (st : Store) (j : string) :
  plain j = true ->
  (forall n, In n st -> id n <> j) ->
  serve app_completed (GET ("/notes/" ++ j)) st
  = mkRun st ["/notes > GET /:id"; "error middleware"]
      (Responded (Js.Num 404) note_not_found_json).
Proof.
  intros Hj Hmiss. unfold serve, app_completed.
  rewrite (handle_note_by_id _ _ j st (segments_notes_id j Hj))
    by (now apply plain_inv in Hj).
  rewrite (find_by_id_none st j Hmiss). reflexivity.
Qed.

Lemma missing_note_answered_404_witness :
  serve app_completed (GET "/notes/999") notes
  = mkRun notes ["/notes > GET /:id"; "error middleware"]
      (Responded (Js.Num 404)
         (Js.Obj [("error",
                   Js.Obj [("message", Js.Str "Note not found");
                           ("status", Js.Num 404)])])).
Proof.
  apply (missing_note_answered_404 notes "999"); [reflexivity|].
  intros n Hin. simpl in Hin.
  destruct Hin as [<-|[<-|[]]]; discriminate.
Defined.

(** C5: for every id [i] (one path segment) that some note of the
    store has, [GET /notes/i] is answered with status 200 and the JSON
    of the note found, a note of the store whose [id] is [i]. *)
Theorem existing_note_answered_200 (st : Store) (i : string) :
  plain i = true ->
  (exists n, In n st /\ id n = i) ->
  exists note,
    find_by_id st i = Some note /\ In note st /\ id note = i /\
    Js.get (note_json note) "id" = Js.Str i /\
    serve app (GET ("/notes/" ++ i)) st
    = mkRun st ["/notes > GET /:id"] (Responded (Js.Num 200) (note_json note)).
Proof.
  intros Hi Hex.
  destruct (find_by_id_some st i Hex) as [note [Hfind [Hin Hid]]].
  exists note. repeat split; try assumption.
  - simpl. now rewrite Hid.
  - unfold serve. rewrite <- (app_nil_r app).
    rewrite (handle_note_by_id _ _ i st (segments_notes_id i Hi))
      by (now apply plain_inv in Hi).
    now rewrite Hfind.
Qed.

Lemma existing_note_answered_200_witness :
  exists note,
    find_by_id notes "2" = Some note /\ In note notes /\ id note = "2" /\
    Js.get (note_json note) "id" = Js.Str "2" /\
    serve app (GET "/notes/2") notes
    = mkRun notes ["/notes > GET /:id"] (Responded (Js.Num 200) (note_json note)).
Proof.
  apply (existing_note_answered_200 notes "2"); [reflexivity|].
  exists (mkNote "2" (Js.Str "Workout") (Js.Str "Leg day")).
  split; [simpl; auto | reflexivity].
Defined.

(** C9: [GET /notes/async-notes] is taken by the handler of [/:id]
    with [id = "async-notes"]; when no note has that id the handler
    delegates the error [{message: "Note not found", status: 404}],
    and the handler of [/async-notes/:id] is never entered. *)
Theorem async_notes_alone_is_an_id (st : Store) :
  (forall n, In n st -> id n <> "async-notes") ->
  let r := GET "/notes/async-notes" in
  map (fun l => enter l r) app
  = [None; None; Some [("id", "async-notes")]; None] /\
  noteById (mkCtx r [("id", "async-notes")]) st
  = (st, NextErr (AppError "Note not found" (Some 404%Z))) /\
  serve app r st
  = mkRun st ["/notes > GET /:id"]
      (HostError (AppError "Note not found" (Some 404%Z))) /\
  ~ In "/notes > GET /async-notes/:id" (trace (serve app r st)).
Proof.
  intros Hmiss r.
  assert (Hserve : serve app r st
                   = mkRun st ["/notes > GET /:id"]
                       (HostError (AppError "Note not found" (Some 404%Z)))).
  { unfold serve, r. rewrite <- (app_nil_r app).
    rewrite (handle_note_by_id [] "/notes/async-notes" "async-notes" st)
      by reflexivity.
    rewrite (find_by_id_none st _ Hmiss). reflexivity. }
  split; [reflexivity|]. split.
  - unfold noteById. cbn [params param String.eqb Ascii.eqb Bool.eqb].
    rewrite (find_by_id_none st _ Hmiss). reflexivity.
  - split; [exact Hserve|]. rewrite Hserve. simpl.
    intros [H|[]]. discriminate.
Qed.

Lemma async_notes_alone_is_an_id_witness :
  serve app (GET "/notes/async-notes") notes
  = mkRun notes ["/notes > GET /:id"]
      (HostError (Js.Obj [("message", Js.Str "Note not found"); ("status", Js.Num 404)])).
Proof.
  refine (proj1 (proj2 (proj2 (async_notes_alone_is_an_id notes _)))).
  intros n Hin. simpl in Hin.
  destruct Hin as [<-|[<-|[]]]; discriminate.
Defined.

(** ** The simulated-latency lookup *)

Lemma getNoteFromDB_miss (j : string) :
  j <> "1" -> j <> "2" ->
  getNoteFromDB j = Js.Rejected (Js.Error "Note not found in database").
Proof.
  intros H1 H2. unfold getNoteFromDB, find_by_id. cbn [find id].
  destruct (String.eqb_spec "1" j) as [E|_]; [now destruct H1|].
  destruct (String.eqb_spec "2" j) as [E|_]; [now destruct H2|].
  reflexivity.
Qed.

(** What the notes router does with a GET whose path is
    [/notes/async-notes/<j>], whatever follows the router and whatever
    the store holds. *)
Lemma handle_async_note_by_id (rest : list Layer) (target j : string) (st : Store) :
  segments target = Some ["notes"; "async-notes"; j] ->
  (j =? "") = false ->
  handle (app ++ rest) None (GET target) st
  = mkRun st ["/notes > GET /async-notes/:id"]
      match getNoteFromDB j with
      | Js.Resolved note => Responded (Js.Num 200) (note_json note)
      | Js.Rejected reason => UnhandledRejection reason
      end.
Proof.
  intros Hseg Hne.
  unfold app, notesRoute. cbn [use_router map List.app].
  rewrite handle_pass by enter_by Hseg.
  rewrite handle_pass by enter_by Hseg.
  rewrite handle_pass by enter_by Hseg.
  erewrite handle_enter with (ps := [("id", j)]) (h := asyncNoteById);
    [ | enter_by Hseg | reflexivity ].
  unfold asyncNoteById. cbn [param params String.eqb Ascii.eqb Bool.eqb snd fst].
  destruct (getNoteFromDB j); reflexivity.
Qed.

(** C4: a GET of [/notes/async-notes/<j>] with an id that the
    simulated database does not hold ends in an unhandled rejection.
    The rejection is not delegated: even with the catch-all and the
    error middleware registered, neither is entered and no 404
    envelope is produced. *)
Theorem async_miss_is_unhandled (st : Store) (j : string) :
  plain j = true ->
  j <> "1" -> j <> "2" ->
  let r := GET ("/notes/async-notes/" ++ j) in
  let fault := UnhandledRejection (Js.Error "Note not found in database") in
  serve app r st = mkRun st ["/notes > GET /async-notes/:id"] fault /\
  serve app_completed r st = mkRun st ["/notes > GET /async-notes/:id"] fault /\
  outcome (serve app_completed r st) <> Responded (Js.Num 404) note_not_found_json.
Proof.
  intros Hj H1 H2 r fault.
  pose proof (segments_async_notes_id j Hj) as Hseg.
  apply plain_inv in Hj as [Hne _].
  assert (Hc : serve app_completed r st
               = mkRun st ["/notes > GET /async-notes/:id"] fault).
  { unfold serve, app_completed, r.
    rewrite (handle_async_note_by_id _ _ j st Hseg Hne).
    now rewrite (getNoteFromDB_miss j H1 H2). }
  split; [|split; [exact Hc|]].
  - unfold serve, r. rewrite <- (app_nil_r app).
    rewrite (handle_async_note_by_id _ _ j st Hseg Hne).
    now rewrite (getNoteFromDB_miss j H1 H2).
  - rewrite Hc. discriminate.
Qed.

Lemma async_miss_is_unhandled_witness :
  serve app (GET "/notes/async-notes/999") notes
  = mkRun notes ["/notes > GET /async-notes/:id"]
      (UnhandledRejection (Js.Obj [("message", Js.Str "Note not found in database")])).
Proof.
  refine (proj1 (async_miss_is_unhandled notes "999" _ _ _));
    [reflexivity | discriminate | discriminate].
Defined.

(** C10: the outcome of the simulated-latency route is a function of
    the id alone: two runs with the same id over any two states of the
    module-level array end alike, and leave the array as it was.  A
    note appended to the array (any id other than 1 and 2) is found by
    [/notes/<j>] and not by [/notes/async-notes/<j>]. *)
Theorem async_lookup_ignores_store (st1 st2 : Store) (j : string) :
  plain j = true ->
  let r := GET ("/notes/async-notes/" ++ j) in
  outcome (serve app r st1) = outcome (serve app r st2) /\
  trace (serve app r st1) = trace (serve app r st2) /\
  store_after (serve app r st1) = st1 /\
  store_after (serve app r st2) = st2 /\
  ((exists n, In n st1 /\ id n = j) -> j <> "1" -> j <> "2" ->
   (exists note, id note = j /\
      outcome (serve app (GET ("/notes/" ++ j)) st1)
      = Responded (Js.Num 200) (note_json note)) /\
   outcome (serve app r st1)
   = UnhandledRejection (Js.Error "Note not found in database")).
Proof.
  intros Hj r.
  pose proof (segments_async_notes_id j Hj) as Hseg.
  pose proof (plain_inv j Hj) as [Hne _].
  assert (H : forall st, serve app r st
                         = mkRun st ["/notes > GET /async-notes/:id"]
                             match getNoteFromDB j with
                             | Js.Resolved note => Responded (Js.Num 200) (note_json note)
                             | Js.Rejected reason => UnhandledRejection reason
                             end).
  { intros st. unfold serve, r. rewrite <- (app_nil_r app).
    apply (handle_async_note_by_id [] _ j st Hseg Hne). }
  rewrite (H st1), (H st2). cbn [outcome trace store_after].
  do 4 (split; [reflexivity|]).
  intros Hex H1 H2. split.
  - destruct (find_by_id_some st1 j Hex) as [note [Hfind [_ Hid]]].
    exists note. split; [exact Hid|].
    unfold serve. rewrite <- (app_nil_r app).
    rewrite (handle_note_by_id [] _ j st1 (segments_notes_id j Hj) Hne).
    now rewrite Hfind.
  - now rewrite (getNoteFromDB_miss j H1 H2).
Qed.

Lemma async_lookup_ignores_store_witness :
  let appended := mkNote "3" (Js.Str "T") (Js.Str "B") in
  outcome (serve app (GET "/notes/async-notes/3") (notes ++ [appended])%list)
  = outcome (serve app (GET "/notes/async-notes/3") notes) /\
  outcome (serve app (GET "/notes/async-notes/3") (notes ++ [appended])%list)
  = UnhandledRejection (Js.Error "Note not found in database").
Proof.
  intros appended.
  destruct (async_lookup_ignores_store (notes ++ [appended])%list notes "3" eq_refl)
    as [Hsame [_ [_ [_ Hhidden]]]].
  split; [exact Hsame|].
  apply Hhidden; [|discriminate|discriminate].
  exists appended. split; [simpl; auto | reflexivity].
Defined.

(** ** Listing *)

(** What the notes router does with a GET whose path is [/notes]. *)
Lemma handle_list_notes (rest : list Layer) (target : string) (st : Store) :
  segments target = Some ["notes"] ->
  handle (app ++ rest) None (GET target) st
  = mkRun st ["/notes > GET /"] (Responded (Js.Num 200) (Js.Arr (map note_json st))).
Proof.
  intros Hseg.
  unfold app, notesRoute. cbn [use_router map List.app].
  rewrite handle_pass by enter_by Hseg.
  erewrite handle_enter with (ps := []) (h := listNotes);
    [ | enter_by Hseg | reflexivity ].
  reflexivity.
Qed.

(** C6: [GET /notes] is answered with status 200 and the notes of the
    store in their order; before any append these are exactly the two
    seeded notes, Grocery then Workout. *)
Theorem list_notes_seeded :
  (forall st, serve app (GET "/notes") st
              = mkRun st ["/notes > GET /"]
                  (Responded (Js.Num 200) (Js.Arr (map note_json st)))) /\
  serve app (GET "/notes") notes
  = mkRun notes ["/notes > GET /"]
      (Responded (Js.Num 200)
         (Js.Arr [ Js.Obj [("id", Js.Str "1"); ("title", Js.Str "Grocery");
                           ("body", Js.Str "Buy milk")];
                   Js.Obj [("id", Js.Str "2"); ("title", Js.Str "Workout");
                           ("body", Js.Str "Leg day")] ])).
Proof.
  assert (H : forall st, serve app (GET "/notes") st
                         = mkRun st ["/notes > GET /"]
                             (Responded (Js.Num 200) (Js.Arr (map note_json st)))).
  { intros st. unfold serve. rewrite <- (app_nil_r app).
    now apply handle_list_notes. }
  split; [exact H|]. now rewrite H.
Qed.

(** ** The error middleware *)

(** C3, as stated, fails: a status field that is present and falsy
    (here 0) is not the status of the response, which is 500. *)
Lemma error_status_zero_answered_500 :
  let err := Js.Obj [("message", Js.Str "x"); ("status", Js.Num 0)] in
  Js.truthy err = true /\
  Js.get err "status" = Js.Num 0 /\
  snd (errorMiddleware err (mkCtx (GET "/crash") []) notes)
  = Respond (Js.Num 500)
      (Js.Obj [("error", Js.Obj [("message", Js.Str "x"); ("status", Js.Num 500)])]) /\
  snd (errorMiddleware err (mkCtx (GET "/crash") []) notes)
  <> Respond (Js.Num 0)
       (Js.Obj [("error", Js.Obj [("message", Js.Str "x"); ("status", Js.Num 0)])]).
Proof.
  intros err. repeat (split; [reflexivity|]).
  vm_compute. discriminate.
Qed.

(** C3, amended: given any delegated error value whose [status] field
    is an HTTP error status (an integer from 400 to 599) or is falsy
    (absent, 0, empty, [null] or [false]), the error middleware emits
    exactly one response and ends the chain; its status is the field
    in the first case and 500 in the second, and its body is
    [{error: {message: value.message, status: <that status>}}].  A
    delegated value is truthy and is not one of the two strings the
    host reserves ([route], [router]); the request is any but a HEAD,
    which the host answers without a body. *)
Theorem error_middleware_shapes_response (err : Js.value) (r : Request) (st : Store) :
  Js.truthy err = true ->
  err <> Js.Str "route" -> err <> Js.Str "router" ->
  method r <> "HEAD" ->
  error_status (Js.get err "status") = true \/
  Js.truthy (Js.get err "status") = false ->
  exists status,
    handle [use "error middleware" (ErrorMiddleware errorMiddleware)]
      (delegated err) r st
    = mkRun st ["error middleware"]
        (Responded status
           (Js.Obj [("error",
                     Js.Obj [("message", Js.get err "message"); ("status", status)])])) /\
    (error_status (Js.get err "status") = true -> status = Js.get err "status") /\
    (Js.truthy (Js.get err "status") = false -> status = Js.Num 500).
Proof.
  intros Herr _ _ _ _. unfold delegated. rewrite Herr.
  exists (Js.or (Js.get err "status") (Js.Num 500)).
  split; [apply handle_error_middleware|].
  unfold Js.or. split; intros H; [|now rewrite H].
  destruct (Js.get err "status") as [| |b|z|s|items|fields]; try discriminate H.
  simpl in H. apply andb_prop in H as [Hlo _]. apply Z.leb_le in Hlo.
  cbn [Js.truthy]. destruct (Z.eqb_spec z 0); [lia|reflexivity].
Qed.

Lemma error_middleware_shapes_response_witness :
  let err := Js.set_status (Js.Error "Resource not found") (Js.Num 404) in
  handle [use "error middleware" (ErrorMiddleware errorMiddleware)]
    (delegated err) (GET "/not-found") notes
  = mkRun notes ["error middleware"]
      (Responded (Js.Num 404)
         (Js.Obj [("error",
                   Js.Obj [("message", Js.Str "Resource not found");
                           ("status", Js.Num 404)])])).
Proof.
  intros err.
  assert (Hget : method (GET "/not-found") <> "HEAD") by discriminate.
  assert (Hroute : err <> Js.Str "route") by discriminate.
  assert (Hrouter : err <> Js.Str "router") by discriminate.
  destruct (error_middleware_shapes_response err (GET "/not-found") notes
              eq_refl Hroute Hrouter Hget (or_introl eq_refl))
    as [status [Hrun [Hstatus _]]].
  rewrite Hrun, (Hstatus eq_refl). reflexivity.
Defined.

(** ** Creating a note *)

(** [POST /notes] reaches the create-note handler of the README's
    application; the catch-all and the error middleware follow it. *)
Lemma serve_create_note (json : Js.value) (st : Store) :
  let r := POST "/notes" json in
  let done := createNote (mkCtx r []) st in
  let rest := [ use "route not found" (Middleware routeNotFound);
                use "error middleware" (ErrorMiddleware errorMiddleware) ] in
  serve lesson_app r st
  = entered "POST /notes"
      match snd done with
      | Respond status body => mkRun (fst done) [] (Responded status body)
      | Next => handle rest None r (fst done)
      | NextErr err | Throw err => handle rest (delegated err) r (fst done)
      | Rejection reason => mkRun (fst done) [] (UnhandledRejection reason)
      end.
Proof.
  intros r done rest. unfold serve, lesson_app.
  rewrite handle_pass by reflexivity.
  rewrite handle_pass by reflexivity.
  erewrite handle_enter with (ps := []) (h := createNote);
    [ | reflexivity | reflexivity ].
  reflexivity.
Qed.

Lemma truthy_nonempty (s : string) : s <> "" -> Js.truthy (Js.Str s) = true.
Proof.
  intros H. simpl. destruct (String.eqb_spec s ""); [contradiction|reflexivity].
Qed.

(** The handler on a body whose title and body are non-empty strings. *)
Lemma createNote_ok (r : Request) (ps : Params) (st : Store) (T B : string) :
  Js.get (req_body r) "title" = Js.Str T ->
  Js.get (req_body r) "body" = Js.Str B ->
  T <> "" -> B <> "" ->
  createNote (mkCtx r ps) st
  = ((st ++ [mkNote (Js.String_ (List.length st + 1)) (Js.Str T) (Js.Str B)])%list,
     Respond (Js.Num 201)
       (note_json (mkNote (Js.String_ (List.length st + 1)) (Js.Str T) (Js.Str B)))).
Proof.
  intros Ht Hb HT HB. unfold createNote. cbn [req].
  destruct (req_body r); try discriminate Ht;
    rewrite ?Ht, ?Hb, (truthy_nonempty T HT), (truthy_nonempty B HB); reflexivity.
Qed.


(** C7: for every state of the store, [POST /notes] with a non-empty
    title [T] and body [B] is answered with status 201 and the created
    note, the store gains that note at its end, and a following
    [GET /notes] answers with a sequence whose last element is
    [{id: String(previous length + 1), title: T, body: B}]. *)
Theorem create_note_appends (st : Store) (json : Js.value) (T B : string) :
  Js.get json "title" = Js.Str T ->
  Js.get json "body" = Js.Str B ->
  T <> "" -> B <> "" ->
  let newNote := mkNote (Js.String_ (List.length st + 1)) (Js.Str T) (Js.Str B) in
  let created := serve lesson_app (POST "/notes" json) st in
  created = mkRun (st ++ [newNote])%list ["POST /notes"]
              (Responded (Js.Num 201) (note_json newNote)) /\
  exists items,
    serve lesson_app (GET "/notes") (store_after created)
    = mkRun (st ++ [newNote])%list ["GET /notes"] (Responded (Js.Num 200) (Js.Arr items)) /\
    List.length items = S (List.length st) /\
    last items Js.Undefined
    = Js.Obj [("id", Js.Str (Js.String_ (List.length st + 1)));
              ("title", Js.Str T); ("body", Js.Str B)].
Proof.
  intros Ht Hb HT HB newNote created.
  assert (Hc : created = mkRun (st ++ [newNote])%list ["POST /notes"]
                           (Responded (Js.Num 201) (note_json newNote))).
  { unfold created. rewrite serve_create_note.
    rewrite (createNote_ok (POST "/notes" json) [] st T B Ht Hb HT HB).
    reflexivity. }
  split; [exact Hc|].
  exists (map note_json (st ++ [newNote])%list). rewrite Hc. cbn [store_after].
  split; [reflexivity|]. split.
  - rewrite length_map, length_app. simpl. lia.
  - rewrite map_app. simpl. now rewrite last_last.
Qed.

Lemma create_note_appends_witness :
  serve lesson_app
    (POST "/notes" (Js.Obj [("title", Js.Str "T"); ("body", Js.Str "B")])) notes
  = mkRun (notes ++ [mkNote "3" (Js.Str "T") (Js.Str "B")])%list ["POST /notes"]
      (Responded (Js.Num 201)
         (Js.Obj [("id", Js.Str "3"); ("title", Js.Str "T"); ("body", Js.Str "B")])).
Proof.
  refine (proj1 (create_note_appends notes
                   (Js.Obj [("title", Js.Str "T"); ("body", Js.Str "B")])
                   "T" "B" eq_refl eq_refl _ _)); discriminate.
Defined.




(** * Further properties *)

(** ** The chain, in general *)

(** A pending error passes every ordinary layer. *)
Lemma handle_error_passes (mids rest : list Layer) (err : Js.value)
  (r : Request) (st : Store) :
  forallb ordinary mids = true ->
  handle (mids ++ rest) (Some err) r st = handle rest (Some err) r st.
Proof.
  induction mids as [|l mids IH]; simpl; intros H; [reflexivity|].
  apply andb_prop in H as [Hl Hmids]. unfold ordinary in Hl.
  destruct (enter l r); [|now apply IH].
  destruct (fn l); [now apply IH|discriminate].
Qed.

(** What every handler of a stack keeps, a run of the stack keeps. *)
Lemma handle_keeps (P : Store -> Prop) (stack : list Layer) :
  Forall (layer_keeps P) stack ->
  forall pending r st, P st -> P (store_after (handle stack pending r st)).
Proof.
  induction 1 as [|l stack Hl _ IH]; intros pending r st Hst; [exact Hst|].
  simpl. destruct (enter l r) as [ps|]; [|now apply IH].
  unfold layer_keeps in Hl.
  destruct (fn l) as [h|h], pending as [err|]; try (now apply IH).
  - specialize (Hl (mkCtx r ps) st Hst).
    destruct (h (mkCtx r ps) st) as [st' act]. cbn [fst snd] in *.
    destruct act; cbn [entered store_after]; try assumption; now apply IH.
  - specialize (Hl err (mkCtx r ps) st Hst).
    destruct (h err (mkCtx r ps) st) as [st' act]. cbn [fst snd] in *.
    destruct act; cbn [entered store_after]; try assumption; now apply IH.
Qed.

Lemma app_completed_keeps (P : Store -> Prop) :
  Forall (layer_keeps P) app_completed.
Proof.
  repeat constructor; unfold layer_keeps; cbn; intros; try assumption.
  unfold noteById. destruct (find_by_id _ _); assumption.
Qed.

(** X2: the application of [app.js], with or without the catch-all
    and the error middleware, is read-only: whatever the request, the
    store after it is the store before it. *)
Theorem app_never_changes_store (r : Request) (st : Store) :
  store_after (serve app r st) = st /\
  store_after (serve app_completed r st) = st.
Proof.
  split.
  - apply (handle_keeps (fun s => s = st) app); [|reflexivity].
    pose proof (app_completed_keeps (fun s => s = st)) as H.
    unfold app_completed in H. apply Forall_app in H. exact (proj1 H).
  - apply (handle_keeps (fun s => s = st) app_completed); [|reflexivity].
    apply app_completed_keeps.
Qed.

(** X3: with the catch-all and the error middleware registered, no
    request that the host routes by method and path alone is left to
    the host: it is answered with status 200 or 404, unless it is
    taken by the simulated-latency route alone, on an id the database
    rejects. *)
Theorem app_completed_never_left_to_host (r : Request) (st : Store) :
  plainly_routed r ->
  (exists json, outcome (serve app_completed r st) = Responded (Js.Num 200) json) \/
  (exists json, outcome (serve app_completed r st) = Responded (Js.Num 404) json) \/
  (trace (serve app_completed r st) = ["/notes > GET /async-notes/:id"] /\
   exists l ps,
     In l app /\ label l = "/notes > GET /async-notes/:id" /\
     enter l r = Some ps /\
     getNoteFromDB (param ps "id")
     = Js.Rejected (Js.Error "Note not found in database")).
Proof.
  intros _.
  unfold serve, app_completed, app, notesRoute. cbn [use_router map List.app].
  match goal with
  | |- context [handle (?l :: ?rest) None r st] =>
      destruct (enter l r) as [ps|] eqn:E;
      [ rewrite (handle_enter l _ ps rest r st E eq_refl)
      | rewrite (handle_pass l rest None r st E) ]
  end.
  { left. eexists. reflexivity. }
  clear E.
  match goal with
  | |- context [handle (?l :: ?rest) None r st] =>
      destruct (enter l r) as [ps|] eqn:E;
      [ rewrite (handle_enter l _ ps rest r st E eq_refl)
      | rewrite (handle_pass l rest None r st E) ]
  end.
  { left. eexists. reflexivity. }
  clear E.
  match goal with
  | |- context [handle (?l :: ?rest) None r st] =>
      destruct (enter l r) as [ps|] eqn:E;
      [ rewrite (handle_enter l _ ps rest r st E eq_refl)
      | rewrite (handle_pass l rest None r st E) ]
  end.
  { unfold noteById. destruct (find_by_id st (param (params (mkCtx r ps)) "id")).
    - left. eexists. reflexivity.
    - right. left. cbn [snd fst].
      change (delegated (Js.set_status (Js.Error "Note not found") (Js.Num 404)))
        with (Some (Js.Obj [("message", Js.Str "Note not found"); ("status", Js.Num 404)])).
      match goal with
      | |- context [handle (?a :: ?b :: ?rest) (Some ?err) r st] =>
          change (handle (a :: b :: rest) (Some err) r st)
            with (handle ([a; b] ++ rest) (Some err) r st);
          rewrite (handle_error_passes [a; b] rest err r st eq_refl)
      end.
      rewrite handle_error_middleware. eexists. reflexivity. }
  clear E.
  match goal with
  | |- context [handle (?l :: ?rest) None r st] =>
      destruct (enter l r) as [ps|] eqn:E;
      [ rewrite (handle_enter l _ ps rest r st E eq_refl)
      | rewrite (handle_pass l rest None r st E) ]
  end.
  { unfold asyncNoteById. cbn [snd fst params].
    destruct (getNoteFromDB (param ps "id")) as [note|reason] eqn:Hdb.
    - left. eexists. reflexivity.
    - right. right. split; [reflexivity|].
      eexists. exists ps. split; [|split; [|split; [exact E|]]].
      + right. right. right. left. reflexivity.
      + reflexivity.
      + unfold getNoteFromDB in *.
        destruct (find_by_id _ _); [discriminate Hdb|reflexivity]. }
  right. left. eexists. reflexivity.
Qed.

Lemma app_completed_never_left_to_host_witness :
  exists json,
    outcome (serve app_completed (mkRequest "DELETE" "/notes/1?force=1" Js.Undefined) notes)
    = Responded (Js.Num 404) json.
Proof.
  assert (Hr : plainly_routed (mkRequest "DELETE" "/notes/1?force=1" Js.Undefined)).
  { repeat split; try discriminate. }
  destruct (app_completed_never_left_to_host _ notes Hr) as [[json H]|[H|[H _]]].
  - discriminate H.
  - exact H.
  - discriminate H.
Defined.

(** ** The routes of [app.js] *)

(** X1: a GET whose path is [/hello], with or without a query string
    or a trailing slash, is answered with status 200 and
    [{message: "Hello"}] by the first layer, whatever is registered
    after the application's routes and whatever the store holds. *)
Theorem hello_answered (rest : list Layer) (target : string) (st : Store) :
  segments target = Some ["hello"] ->
  serve (app ++ rest) (GET target) st
  = mkRun st ["GET /hello"]
      (Responded (Js.Num 200) (Js.Obj [("message", Js.Str "Hello")])).
Proof.
  intros Hseg. unfold serve, app. cbn [List.app].
  erewrite handle_enter with (ps := []) (h := hello);
    [ | enter_by Hseg | reflexivity ].
  reflexivity.
Qed.

Lemma hello_answered_witness :
  serve app_completed (GET "/hello/?lang=en") notes
  = mkRun notes ["GET /hello"]
      (Responded (Js.Num 200) (Js.Obj [("message", Js.Str "Hello")])).
Proof.
  exact (hello_answered _ "/hello/?lang=en" notes eq_refl).
Defined.




(** ** The simulated-latency lookup, on a hit and with the catch *)

(** X5: on an id the simulated database holds, the simulated-latency
    route answers with status 200 and the database's own copy of the
    note, whatever the module-level array holds at that moment. *)
Theorem async_hit_answers_database_note (st : Store) (j : string) (note : Note) :
  plain j = true ->
  find_by_id notes j = Some note ->
  getNoteFromDB j = Js.Resolved note /\
  id note = j /\
  serve app (GET ("/notes/async-notes/" ++ j)) st
  = mkRun st ["/notes > GET /async-notes/:id"]
      (Responded (Js.Num 200) (note_json note)).
Proof.
  intros Hj Hfind.
  assert (Hdb : getNoteFromDB j = Js.Resolved note).
  { unfold getNoteFromDB. change (find_by_id notes j) with
      (find_by_id [ mkNote "1" (Js.Str "Grocery") (Js.Str "Buy milk");
                    mkNote "2" (Js.Str "Workout") (Js.Str "Leg day") ] j) in Hfind.
    now rewrite Hfind. }
  split; [exact Hdb|]. split.
  - unfold find_by_id in Hfind. apply find_some in Hfind as [_ H].
    now apply String.eqb_eq in H.
  - unfold serve. rewrite <- (app_nil_r app).
    rewrite (handle_async_note_by_id [] _ j st (segments_async_notes_id j Hj))
      by (now apply plain_inv in Hj).
    now rewrite Hdb.
Qed.

Lemma async_hit_answers_database_note_witness :
  serve app (GET "/notes/async-notes/1") [mkNote "1" (Js.Str "Changed") (Js.Str "Other")]
  = mkRun [mkNote "1" (Js.Str "Changed") (Js.Str "Other")]
      ["/notes > GET /async-notes/:id"]
      (Responded (Js.Num 200)
         (Js.Obj [("id", Js.Str "1"); ("title", Js.Str "Grocery");
                  ("body", Js.Str "Buy milk")])).
Proof.
  exact (proj2 (proj2 (async_hit_answers_database_note
                         [mkNote "1" (Js.Str "Changed") (Js.Str "Other")] "1"
                         (mkNote "1" (Js.Str "Grocery") (Js.Str "Buy milk"))
                         eq_refl eq_refl))).
Defined.

Lemma segments_async_id j :
  plain j = true -> segments ("/async-notes/" ++ j) = Some ["async-notes"; j].
Proof.
  intros H. apply plain_inv in H as [Hne Hall].
  unfold segments. simpl. rewrite (pathname_plain j Hall). simpl.
  rewrite (split_slash_plain j Hall). simpl. rewrite Hne. reflexivity.
Qed.

(** X6: the corrected async route, with its [try]/[catch], turns the
    rejection of a missing id into a delegated error with status 404:
    followed by the catch-all and the error middleware it answers 404
    with the envelope of [Note not found in database], and 200 with
    the note on an id the database holds. *)
Theorem async_caught_answers_404 (st : Store) (j : string) :
  plain j = true ->
  let stack := get "/async-notes/:id" asyncNoteByIdCaught :: error_handling in
  let r := GET ("/async-notes/" ++ j) in
  (j <> "1" -> j <> "2" ->
   serve stack r st
   = mkRun st ["GET /async-notes/:id"; "error middleware"]
       (Responded (Js.Num 404)
          (Js.Obj [("error",
                    Js.Obj [("message", Js.Str "Note not found in database");
                            ("status", Js.Num 404)])]))) /\
  (forall note, getNoteFromDB j = Js.Resolved note ->
   serve stack r st
   = mkRun st ["GET /async-notes/:id"] (Responded (Js.Num 200) (note_json note))).
Proof.
  intros Hj stack r.
  pose proof (segments_async_id j Hj) as Hseg.
  apply plain_inv in Hj as [Hne _].
  assert (H : forall target, segments target = Some ["async-notes"; j] ->
              serve stack (GET target) st
              = entered "GET /async-notes/:id"
                  match getNoteFromDB j with
                  | Js.Resolved note =>
                      mkRun st [] (Responded (Js.Num 200) (note_json note))
                  | Js.Rejected reason =>
                      handle error_handling
                        (delegated (Js.set_status reason (Js.Num 404))) (GET target) st
                  end).
  { intros target Ht. unfold serve, stack.
    erewrite handle_enter with (ps := [("id", j)]) (h := asyncNoteByIdCaught);
      [ | enter_by Ht | reflexivity ].
    unfold asyncNoteByIdCaught.
    cbn [param params String.eqb Ascii.eqb Bool.eqb snd fst].
    destruct (getNoteFromDB j); reflexivity. }
  specialize (H _ Hseg). fold r in H.
  split.
  - intros H1 H2. rewrite H, (getNoteFromDB_miss j H1 H2). reflexivity.
  - intros note Hdb. rewrite H, Hdb. reflexivity.
Qed.

Lemma async_caught_answers_404_witness :
  serve (get "/async-notes/:id" asyncNoteByIdCaught :: error_handling)
    (GET "/async-notes/999") notes
  = mkRun notes ["GET /async-notes/:id"; "error middleware"]
      (Responded (Js.Num 404)
         (Js.Obj [("error",
                   Js.Obj [("message", Js.Str "Note not found in database");
                           ("status", Js.Num 404)])])).
Proof.
  refine (proj1 (async_caught_answers_404 notes "999" eq_refl) _ _); discriminate.
Defined.

(** ** Registration order *)

(** X7: registered before the routes, the catch-all shadows them all:
    every request, also one a route would take, is answered with
    status 404 and the [Route not found] envelope, and no route is
    entered. *)
Theorem catch_all_first_shadows_routes (routes : list Layer) (r : Request) (st : Store) :
  forallb ordinary routes = true ->
  serve (use "route not found" (Middleware routeNotFound)
           :: routes ++ [use "error middleware" (ErrorMiddleware errorMiddleware)]) r st
  = mkRun st ["route not found"; "error middleware"]
      (Responded (Js.Num 404) (route_not_found_json r)).
Proof.
  intros H. unfold serve.
  erewrite handle_enter with (ps := []) (h := routeNotFound);
    [ | reflexivity | reflexivity ].
  cbn [routeNotFound snd fst req].
  change (delegated _) with
    (Some (Js.Obj [("message",
                    Js.Str ("Route not found: " ++ method r ++ " " ++ url r));
                   ("status", Js.Num 404)])).
  rewrite (handle_error_passes routes _ _ r st H). reflexivity.
Qed.

Lemma catch_all_first_shadows_routes_witness :
  serve (use "route not found" (Middleware routeNotFound)
           :: app ++ [use "error middleware" (ErrorMiddleware errorMiddleware)])
    (GET "/hello") notes
  = mkRun notes ["route not found"; "error middleware"]
      (Responded (Js.Num 404)
         (Js.Obj [("error",
                   Js.Obj [("message", Js.Str "Route not found: GET /hello");
                           ("status", Js.Num 404)])])).
Proof.
  exact (catch_all_first_shadows_routes app (GET "/hello") notes eq_refl).
Defined.

(** X8: registered after the error middleware, the catch-all has
    nobody to take its error: a request that matches no route (one
    the host routes by method and path alone: not HEAD or OPTIONS,
    plain target) is left to the host with the 404 error pending, and
    no envelope is emitted. *)
Theorem error_middleware_first_misses_404 (routes : list Layer) (r : Request) (st : Store) :
  plainly_routed r ->
  no_route routes r = true ->
  serve (routes ++ [ use "error middleware" (ErrorMiddleware errorMiddleware);
                     use "route not found" (Middleware routeNotFound) ]) r st
  = mkRun st ["route not found"]
      (HostError (Js.Obj [("message",
                           Js.Str ("Route not found: " ++ method r ++ " " ++ url r));
                          ("status", Js.Num 404)])).
Proof.
  intros _ H. unfold serve. rewrite (handle_skip _ _ _ _ _ H). reflexivity.
Qed.

Lemma error_middleware_first_misses_404_witness :
  serve (app ++ [ use "error middleware" (ErrorMiddleware errorMiddleware);
                  use "route not found" (Middleware routeNotFound) ])
    (GET "/does-not-exist") notes
  = mkRun notes ["route not found"]
      (HostError (Js.Obj [("message", Js.Str "Route not found: GET /does-not-exist");
                          ("status", Js.Num 404)])).
Proof.
  assert (Hr : plainly_routed (GET "/does-not-exist")).
  { repeat split; try discriminate. }
  exact (error_middleware_first_misses_404 app (GET "/does-not-exist") notes Hr eq_refl).
Defined.

(** ** The warm-up and the routes of Section 1 *)

(** X9: in the warm-up application the global middleware is entered
    first by every request, whatever its method and path, and changes
    nothing.  Of the requests the host routes by method and path alone
    (not HEAD or OPTIONS, plain target), a GET of [/hello] is then
    answered and any other is left to the host's 404 page. *)
Theorem global_middleware_sees_every_request (r : Request) (st : Store) :
  (plainly_routed r -> enter (get "/hello" hello) r = None ->
   serve warmup_app r st = mkRun st ["global middleware"] HostNotFound) /\
  (plainly_routed r -> enter (get "/hello" hello) r <> None ->
   serve warmup_app r st
   = mkRun st ["global middleware"; "GET /hello"]
       (Responded (Js.Num 200) (Js.Obj [("message", Js.Str "Hello")]))) /\
  hd_error (trace (serve warmup_app r st)) = Some "global middleware" /\
  store_after (serve warmup_app r st) = st.
Proof.
  assert (H : serve warmup_app r st
              = entered "global middleware"
                  (handle [get "/hello" hello] None r st)) by reflexivity.
  rewrite H. clear H.
  destruct (enter (get "/hello" hello) r) as [ps|] eqn:E.
  - rewrite (handle_enter _ hello ps [] r st E eq_refl).
    repeat split; try reflexivity. intros; discriminate.
  - rewrite (handle_pass _ [] None r st E).
    repeat split; try reflexivity. intros _ H; now destruct H.
Qed.

Lemma global_middleware_sees_every_request_witness :
  serve warmup_app (GET "/not-a-route") notes
  = mkRun notes ["global middleware"] HostNotFound.
Proof.
  assert (Hr : plainly_routed (GET "/not-a-route")).
  { repeat split; try discriminate. }
  exact (proj1 (global_middleware_sees_every_request (GET "/not-a-route") notes)
           Hr eq_refl).
Defined.

(** X10: the error thrown by [/crash] and the error delegated by
    [/not-found] both pass every ordinary middleware registered after
    them.  With no error middleware they are left to the host; with
    the error middleware at the end the first is answered with status
    500, having no status of its own, and the second with its own
    404, each with its message in the envelope. *)
Theorem section1_errors_reach_error_middleware (mids : list Layer) (st : Store) :
  forallb ordinary mids = true ->
  let routes := [get "/crash" crash; get "/not-found" resourceNotFound] in
  let last := [use "error middleware" (ErrorMiddleware errorMiddleware)] in
  serve (routes ++ mids) (GET "/crash") st
  = mkRun st ["GET /crash"] (HostError (Js.Error "Something broke!")) /\
  serve (routes ++ mids ++ last) (GET "/crash") st
  = mkRun st ["GET /crash"; "error middleware"]
      (Responded (Js.Num 500)
         (Js.Obj [("error",
                   Js.Obj [("message", Js.Str "Something broke!");
                           ("status", Js.Num 500)])])) /\
  serve (routes ++ mids ++ last) (GET "/not-found") st
  = mkRun st ["GET /not-found"; "error middleware"]
      (Responded (Js.Num 404)
         (Js.Obj [("error",
                   Js.Obj [("message", Js.Str "Resource not found");
                           ("status", Js.Num 404)])])).
Proof.
  intros H routes last. unfold serve, routes, last. cbn [List.app].
  split; [|split].
  - erewrite handle_enter with (ps := []) (h := crash);
      [ | reflexivity | reflexivity ].
    cbn [crash snd fst].
    change (delegated (Js.Error "Something broke!"))
      with (Some (Js.Error "Something broke!")).
    rewrite handle_pass by reflexivity.
    rewrite <- (app_nil_r mids).
    rewrite (handle_error_passes mids [] _ _ st H). reflexivity.
  - erewrite handle_enter with (ps := []) (h := crash);
      [ | reflexivity | reflexivity ].
    cbn [crash snd fst].
    change (delegated (Js.Error "Something broke!"))
      with (Some (Js.Error "Something broke!")).
    rewrite handle_pass by reflexivity.
    rewrite (handle_error_passes mids _ _ _ st H). reflexivity.
  - rewrite handle_pass by reflexivity.
    erewrite handle_enter with (ps := []) (h := resourceNotFound);
      [ | reflexivity | reflexivity ].
    cbn [resourceNotFound snd fst].
    change (delegated _)
      with (Some (Js.Obj [("message", Js.Str "Resource not found");
                          ("status", Js.Num 404)])).
    rewrite (handle_error_passes mids _ _ _ st H). reflexivity.
Qed.

Lemma section1_errors_reach_error_middleware_witness :
  serve ([get "/crash" crash; get "/not-found" resourceNotFound]
           ++ [use "route not found" (Middleware routeNotFound)]
           ++ [use "error middleware" (ErrorMiddleware errorMiddleware)])
    (GET "/crash") notes
  = mkRun notes ["GET /crash"; "error middleware"]
      (Responded (Js.Num 500)
         (Js.Obj [("error",
                   Js.Obj [("message", Js.Str "Something broke!");
                           ("status", Js.Num 500)])])).
Proof.
  exact (proj1 (proj2 (section1_errors_reach_error_middleware
                         [use "route not found" (Middleware routeNotFound)]
                         notes eq_refl))).
Defined.

(** X11: a path registered with [post] only is not entered by a
    request with another method, as a browser's GET: with the
    catch-all and the error middleware behind it the request is
    answered with the 404 envelope, while a POST of the path is
    answered with status 200 and [{created: true}]. *)
Theorem post_only_route_misses_get (r : Request) (st : Store) :
  let stack := post "/notes" created :: error_handling in
  (method r <> "POST" ->
   serve stack r st
   = mkRun st ["route not found"; "error middleware"]
       (Responded (Js.Num 404) (route_not_found_json r))) /\
  (method r = "POST" -> segments (url r) = Some ["notes"] ->
   serve stack r st
   = mkRun st ["POST /notes"]
       (Responded (Js.Num 200) (Js.Obj [("created", Js.Bool true)]))).
Proof.
  intros stack. unfold serve, stack. split.
  - intros H. apply String.eqb_neq in H.
    rewrite handle_pass; [reflexivity|].
    unfold enter, post. cbn [on_method match_method]. now rewrite H.
  - intros Hm Hseg.
    erewrite handle_enter with (ps := []) (h := created);
      [ reflexivity | | reflexivity ].
    unfold enter, post. cbn [on_method match_method on_path match_path].
    rewrite Hm, Hseg. reflexivity.
Qed.

Lemma post_only_route_misses_get_witness :
  serve (post "/notes" created :: error_handling) (GET "/notes") notes
  = mkRun notes ["route not found"; "error middleware"]
      (Responded (Js.Num 404)
         (Js.Obj [("error",
                   Js.Obj [("message", Js.Str "Route not found: GET /notes");
                           ("status", Js.Num 404)])])).
Proof.
  refine (proj1 (post_only_route_misses_get (GET "/notes") notes) _). discriminate.
Defined.

(** ** Creating notes, further *)

(** The handler on an object, by the truthiness of its two fields. *)
Lemma createNote_object (r : Request) (ps : Params) (st : Store)
  (fields : list (string * Js.value)) :
  req_body r = Js.Obj fields ->
  createNote (mkCtx r ps) st
  = if Js.truthy (Js.lookup "title" fields) && Js.truthy (Js.lookup "body" fields)
    then
      let newNote := mkNote (Js.String_ (List.length st + 1))
                       (Js.lookup "title" fields) (Js.lookup "body" fields) in
      ((st ++ [newNote])%list, Respond (Js.Num 201) (note_json newNote))
    else (st, NextErr (AppError "title and body required" (Some 400%Z))).
Proof.
  intros Hobj. unfold createNote. cbn [req]. rewrite Hobj. cbn [Js.get].
  destruct (Js.truthy (Js.lookup "title" fields)),
           (Js.truthy (Js.lookup "body" fields)); reflexivity.
Qed.

(** X12: on a JSON object, [POST /notes] creates a note exactly when
    the title and the body are both truthy, and stores the two values
    as they are, of whatever type; otherwise, also for a title or body
    that is 0, [false] or [null], it answers 400 and stores nothing. *)
Theorem create_note_checks_truthiness_only (st : Store)
  (fields : list (string * Js.value)) :
  let t := Js.lookup "title" fields in
  let b := Js.lookup "body" fields in
  let newNote := mkNote (Js.String_ (List.length st + 1)) t b in
  serve lesson_app (POST "/notes" (Js.Obj fields)) st
  = if Js.truthy t && Js.truthy b
    then mkRun (st ++ [newNote])%list ["POST /notes"]
           (Responded (Js.Num 201) (note_json newNote))
    else mkRun st ["POST /notes"; "error middleware"]
           (Responded (Js.Num 400)
              (Js.Obj [("error",
                        Js.Obj [("message", Js.Str "title and body required");
                                ("status", Js.Num 400)])])).
Proof.
  intros t b newNote. rewrite serve_create_note.
  rewrite (createNote_object (POST "/notes" (Js.Obj fields)) [] st fields eq_refl).
  fold t b. destruct (Js.truthy t && Js.truthy b); reflexivity.
Qed.

(** X13: [POST /notes] on a request whose [req.body] is [undefined]
    or [null] fails while the handler takes the fields out of it: the
    thrown error has no status, so the error middleware answers 500,
    not 400, and the store is left as it was. *)
Theorem create_note_without_body_answers_500 (st : Store) (json : Js.value) :
  json = Js.Undefined \/ json = Js.Null ->
  exists message,
    serve lesson_app (POST "/notes" json) st
    = mkRun st ["POST /notes"; "error middleware"]
        (Responded (Js.Num 500)
           (Js.Obj [("error",
                     Js.Obj [("message", Js.Str message); ("status", Js.Num 500)])])).
Proof.
  intros [->| ->]; rewrite serve_create_note; eexists; reflexivity.
Qed.

Lemma create_note_without_body_answers_500_witness :
  exists message,
    serve lesson_app (POST "/notes" Js.Undefined) notes
    = mkRun notes ["POST /notes"; "error middleware"]
        (Responded (Js.Num 500)
           (Js.Obj [("error",
                     Js.Obj [("message", Js.Str message); ("status", Js.Num 500)])])).
Proof.
  exact (create_note_without_body_answers_500 notes Js.Undefined (or_introl eq_refl)).
Defined.

Lemma createNote_extends (ctx : Ctx) (st : Store) :
  exists suffix, fst (createNote ctx st) = (st ++ suffix)%list.
Proof.
  unfold createNote.
  destruct (req_body (req ctx));
    try (exists []; now rewrite app_nil_r);
    match goal with
    | |- context [if ?c then _ else _] => destruct c
    end;
    solve [ exists []; now rewrite app_nil_r | eexists; reflexivity ].
Qed.

Lemma lesson_app_keeps (P : Store -> Prop) :
  (forall ctx st, P st -> P (fst (createNote ctx st))) ->
  Forall (layer_keeps P) lesson_app.
Proof.
  intros Hc. repeat constructor; unfold layer_keeps; cbn [fn get post use];
    intros; try (now apply Hc); try assumption.
  unfold noteById. destruct (find_by_id _ _); assumption.
Qed.

(** X14: the README's notes application only ever appends: whatever
    the request, the store before it is a prefix of the store after
    it, so no note is removed, changed or moved. *)
Theorem lesson_app_only_appends (r : Request) (st : Store) :
  exists suffix, store_after (serve lesson_app r st) = (st ++ suffix)%list.
Proof.
  apply (handle_keeps (fun s => exists suffix, s = (st ++ suffix)%list) lesson_app).
  - apply lesson_app_keeps. intros ctx s [suffix ->].
    destruct (createNote_extends ctx (st ++ suffix)%list) as [more ->].
    exists (suffix ++ more)%list. now rewrite app_assoc.
  - exists []. now rewrite app_nil_r.
Qed.

(** ** Sequential ids *)

Lemma to_uint_nonnil (n : nat) : Nat.to_uint n <> Decimal.Nil.
Proof.
  pose proof (DecimalNat.Unsigned.to_of (Nat.to_uint n)) as H.
  rewrite DecimalNat.Unsigned.of_to in H. rewrite H.
  unfold Decimal.unorm. destruct (Decimal.nzhead (Nat.to_uint n)); discriminate.
Qed.

(** [String(n)] tells the numbers apart. *)
Lemma String_inj (n m : nat) : Js.String_ n = Js.String_ m -> n = m.
Proof.
  unfold Js.String_. intros H.
  apply DecimalNat.Unsigned.to_uint_inj.
  pose proof (NilZero.usu _ (to_uint_nonnil n)) as Hn.
  pose proof (NilZero.usu _ (to_uint_nonnil m)) as Hm.
  rewrite H in Hn. rewrite Hn in Hm. now injection Hm.
Qed.

Lemma digits_plain (d : Decimal.uint) :
  all_chars plain_char (NilEmpty.string_of_uint d) = true.
Proof. induction d; simpl; auto. Qed.

Lemma String_plain (n : nat) : plain (Js.String_ n) = true.
Proof.
  unfold plain, Js.String_, NilZero.string_of_uint.
  destruct (Nat.to_uint n) eqn:E; try reflexivity;
    rewrite <- E at 2; simpl; apply (digits_plain (Nat.to_uint n)).
Qed.

Lemma well_numbered_seed : well_numbered notes.
Proof. reflexivity. Qed.

Lemma well_numbered_push (st : Store) (t b : Js.value) :
  well_numbered st ->
  well_numbered (st ++ [mkNote (Js.String_ (List.length st + 1)) t b])%list.
Proof.
  unfold well_numbered. intros H.
  rewrite map_app, length_app, H. cbn [List.length map id].
  rewrite seq_app, map_app. cbn [seq map].
  now rewrite (Nat.add_comm 1 (List.length st)).
Qed.

Lemma createNote_numbered (ctx : Ctx) (st : Store) :
  well_numbered st -> well_numbered (fst (createNote ctx st)).
Proof.
  intros H. unfold createNote.
  destruct (req_body (req ctx)); try exact H;
    match goal with
    | |- context [if ?c then _ else _] => destruct c
    end; try exact H; now apply well_numbered_push.
Qed.

Lemma String_map_nodup (l : list nat) : NoDup l -> NoDup (map Js.String_ l).
Proof.
  induction 1 as [|k l Hk _ IH]; cbn [map]; constructor; [|exact IH].
  intros Hin. apply in_map_iff in Hin as [m [E Hm]].
  apply String_inj in E. now subst m.
Qed.

Lemma well_numbered_nodup (st : Store) : well_numbered st -> NoDup (map id st).
Proof.
  unfold well_numbered. intros ->. apply String_map_nodup, seq_NoDup.
Qed.

Lemma well_numbered_plain (st : Store) (n : Note) :
  well_numbered st -> In n st -> plain (id n) = true.
Proof.
  unfold well_numbered. intros H Hin.
  apply (in_map id) in Hin. rewrite H in Hin.
  apply in_map_iff in Hin as [k [<- _]]. apply String_plain.
Qed.

(** With distinct ids, every note is the one found under its id. *)
Lemma find_by_id_own (st : Store) (n : Note) :
  NoDup (map id st) -> In n st -> find_by_id st (id n) = Some n.
Proof.
  unfold find_by_id. induction st as [|m st IH]; intros Hnd Hin; [destruct Hin|].
  cbn [map] in Hnd. apply NoDup_cons_iff in Hnd as [Hfresh Hnd]. cbn [find].
  destruct Hin as [->|Hin]; [now rewrite String.eqb_refl|].
  destruct (String.eqb_spec (id m) (id n)) as [E|_]; [|now apply IH].
  exfalso. apply Hfresh. rewrite E. now apply in_map.
Qed.

(** What the README's application does with a GET whose path is
    [/notes/<j>]. *)
Lemma lesson_note_by_id (target j : string) (st : Store) :
  segments target = Some ["notes"; j] ->
  (j =? "") = false ->
  serve lesson_app (GET target) st
  = match find_by_id st j with
    | None =>
        mkRun st ["GET /notes/:id"; "error middleware"]
          (Responded (Js.Num 404) note_not_found_json)
    | Some note =>
        mkRun st ["GET /notes/:id"] (Responded (Js.Num 200) (note_json note))
    end.
Proof.
  intros Hseg Hne. unfold serve, lesson_app.
  rewrite handle_pass by enter_by Hseg.
  erewrite handle_enter with (ps := [("id", j)]) (h := noteById);
    [ | enter_by Hseg | reflexivity ].
  unfold noteById. cbn [param params String.eqb Ascii.eqb Bool.eqb].
  destruct (find_by_id st j); reflexivity.
Qed.

(** X15: the sequential numbering of the ids is an invariant of the
    README's application: if the ids of the store are 1, 2, ... in
    insertion order, they still are after any request. *)
Theorem lesson_app_keeps_numbering (r : Request) (st : Store) :
  well_numbered st -> well_numbered (store_after (serve lesson_app r st)).
Proof.
  apply (handle_keeps well_numbered lesson_app).
  apply lesson_app_keeps. intros ctx s. apply createNote_numbered.
Qed.

Lemma lesson_app_keeps_numbering_witness :
  well_numbered
    (store_after
       (serve lesson_app
          (POST "/notes" (Js.Obj [("title", Js.Str "T"); ("body", Js.Str "B")]))
          notes)).
Proof.
  exact (lesson_app_keeps_numbering _ notes well_numbered_seed).
Defined.

Lemma serve_all_numbered (rs : list Request) (st : Store) :
  well_numbered st -> well_numbered (serve_all lesson_app rs st).
Proof.
  revert st. induction rs as [|r rs IH]; intros st H; [exact H|].
  cbn [serve_all]. apply IH.
  apply (handle_keeps well_numbered lesson_app); [|exact H].
  apply lesson_app_keeps. intros ctx s. apply createNote_numbered.
Qed.

(** X16: after any sequence of requests to the README's application,
    started on the seeded store, the ids of the store are pairwise
    distinct and every note of the store is the one that
    [GET /notes/<its id>] answers, with status 200. *)
Theorem every_note_found_by_its_id (rs : list Request) :
  let st := serve_all lesson_app rs notes in
  NoDup (map id st) /\
  forall n, In n st ->
    serve lesson_app (GET ("/notes/" ++ id n)) st
    = mkRun st ["GET /notes/:id"] (Responded (Js.Num 200) (note_json n)).
Proof.
  intros st.
  assert (Hwn : well_numbered st) by apply serve_all_numbered, well_numbered_seed.
  pose proof (well_numbered_nodup st Hwn) as Hnd.
  split; [exact Hnd|]. intros n Hin.
  pose proof (well_numbered_plain st n Hwn Hin) as Hp.
  rewrite (lesson_note_by_id _ (id n) st (segments_notes_id _ Hp))
    by (now apply plain_inv in Hp).
  now rewrite (find_by_id_own st n Hnd Hin).
Qed.

(** X17: on a store whose ids are sequential, a note created by
    [POST /notes] is the one a following GET of [/notes/<new id>]
    answers: the new id collides with no earlier one. *)
Theorem created_note_found_by_its_id (st : Store) (fields : list (string * Js.value)) :
  well_numbered st ->
  Js.truthy (Js.lookup "title" fields) = true ->
  Js.truthy (Js.lookup "body" fields) = true ->
  let newNote := mkNote (Js.String_ (List.length st + 1))
                   (Js.lookup "title" fields) (Js.lookup "body" fields) in
  let after := store_after (serve lesson_app (POST "/notes" (Js.Obj fields)) st) in
  after = (st ++ [newNote])%list /\
  serve lesson_app (GET ("/notes/" ++ id newNote)) after
  = mkRun after ["GET /notes/:id"] (Responded (Js.Num 200) (note_json newNote)).
Proof.
  intros Hwn Ht Hb newNote after.
  assert (Ha : after = (st ++ [newNote])%list).
  { unfold after. rewrite serve_create_note.
    rewrite (createNote_object (POST "/notes" (Js.Obj fields)) [] st fields eq_refl).
    rewrite Ht, Hb. reflexivity. }
  split; [exact Ha|]. rewrite Ha.
  pose proof (well_numbered_push st (Js.lookup "title" fields)
                (Js.lookup "body" fields) Hwn) as Hwn'.
  fold newNote in Hwn'.
  assert (Hin : In newNote (st ++ [newNote])%list)
    by (apply in_or_app; right; now left).
  pose proof (well_numbered_plain _ newNote Hwn' Hin) as Hp.
  rewrite (lesson_note_by_id _ (id newNote) _ (segments_notes_id _ Hp))
    by (now apply plain_inv in Hp).
  now rewrite (find_by_id_own _ newNote (well_numbered_nodup _ Hwn') Hin).
Qed.

Lemma created_note_found_by_its_id_witness :
  serve lesson_app (GET "/notes/3")
    (notes ++ [mkNote "3" (Js.Str "T") (Js.Str "B")])%list
  = mkRun (notes ++ [mkNote "3" (Js.Str "T") (Js.Str "B")])%list ["GET /notes/:id"]
      (Responded (Js.Num 200)
         (Js.Obj [("id", Js.Str "3"); ("title", Js.Str "T"); ("body", Js.Str "B")])).
Proof.
  destruct (created_note_found_by_its_id notes
              [("title", Js.Str "T"); ("body", Js.Str "B")]
              well_numbered_seed eq_refl eq_refl) as [Ha Hrun].
  rewrite Ha in Hrun. exact Hrun.
Defined.
